(** * tools/web_parser_bs4.py: whitespace cleaning and method dispatch

    A shallow embedding of the module [web_parser_bs4]: the cleaning
    transform [clean_text], the dispatcher [extract_text] together with the
    module namespace it resolves names in, and the properties the
    specification states about them. *)

From Stdlib Require Import NArith String Ascii Lia.
From stdpp Require Import base list strings gmap.

Local Open Scope N_scope.

(** ** Python strings *)

(** A Python [str] is a sequence of Unicode code points. *)
Module Str.

Abbreviation code_point := N (only parsing).
Abbreviation str := (list N) (only parsing).

(** A literal of the source, written as a Rocq string (ASCII only). *)
Fixpoint lit (s : string) : str :=
  match s with
  | EmptyString => []
  | String a s' => N_of_ascii a :: lit s'
  end.

(** [str.isspace] on one code point, the test [str.split()] uses
    (CPython's [Py_UNICODE_ISSPACE]). *)
Definition isspace (c : code_point) : bool :=
  ((0x09 <=? c) && (c <=? 0x0D))
  || ((0x1C <=? c) && (c <=? 0x20))
  || (c =? 0x85) || (c =? 0xA0) || (c =? 0x1680)
  || ((0x2000 <=? c) && (c <=? 0x200A))
  || (c =? 0x2028) || (c =? 0x2029) || (c =? 0x202F)
  || (c =? 0x205F) || (c =? 0x3000).

Definition space : code_point := 0x20.

(** [text.split()]: the maximal runs of non-whitespace code points, in
    order; no empty string is ever produced. *)
Fixpoint split (s : str) : list str :=
  match s with
  | [] => []
  | c :: s' =>
      if isspace c then split s'
      else
        match s' with
        | [] => [[c]]
        | d :: _ =>
            if isspace d then [c] :: split s'
            else
              match split s' with
              | t :: ts => (c :: t) :: ts
              | [] => [[c]]
              end
        end
  end.

(** [sep.join(parts)]. *)
Fixpoint join (sep : str) (parts : list str) : str :=
  match parts with
  | [] => []
  | [p] => p
  | p :: rest => p ++ sep ++ join sep rest
  end.

End Str.

Import Str.

(** ** The cleaning transform *)

(** [def clean_text(text): return ' '.join(text.split())] *)
Definition clean_text (text : str) : str :=
  join (lit " ") (split text).

(** Shapes of strings the specification speaks about. *)

(** Two adjacent whitespace code points somewhere in [s]. *)
Fixpoint has_whitespace_run (s : str) : bool :=
  match s with
  | c :: (d :: _) as s' => (isspace c && isspace d) || has_whitespace_run s'
  | _ => false
  end.

Definition starts_with_whitespace (s : str) : bool :=
  match s with
  | c :: _ => isspace c
  | [] => false
  end.

Definition ends_with_whitespace (s : str) : bool :=
  starts_with_whitespace (rev s).

(** The code points of [s] that are not whitespace, in order. *)
Definition non_whitespace (s : str) : str :=
  filter (λ c, isspace c = false) s.

(** ** Tokens and runs *)

Definition all_whitespace (s : str) : Prop :=
  Forall (λ c, isspace c = true) s.

Definition whitespace_free (s : str) : Prop :=
  Forall (λ c, isspace c = false) s.

(** The only whitespace in [s] is the space U+0020: no tab, newline or
    other blank. *)
Definition only_plain_spaces (s : str) : Prop :=
  Forall (λ c, isspace c = true → c = space) s.

(** What [split] produces: a non-empty string without whitespace. *)
Definition is_token (t : str) : Prop :=
  t ≠ [] ∧ whitespace_free t.

(** The decomposition of a text into its maximal whitespace-free runs:
    each run is non-empty, holds no whitespace, is preceded by whitespace
    only (back to the previous run or the start) and is followed by a
    whitespace code point or by the end of the text. *)
Inductive whitespace_free_runs : str → list str → Prop :=
  | runs_none ws :
      all_whitespace ws →
      whitespace_free_runs ws []
  | runs_next ws r rest rs :
      all_whitespace ws →
      is_token r →
      rest = [] ∨ starts_with_whitespace rest = true →
      whitespace_free_runs rest rs →
      whitespace_free_runs (ws ++ r ++ rest) (r :: rs).

(** ** Values, exceptions and observable effects *)

Inductive value : Type :=
  | VStr (s : str)
  | VNone
  | VInstance (cls : string).

Inductive exn : Type :=
  | NameError (name : string)
  | TypeError
  | AttributeError (attr : string)
  | RecursionError.

(** What a run does to the outside world: an HTTP GET (the Fetcher) or a
    line written to standard output. *)
Inductive event : Type :=
  | EvHttpGet (url : str)
  | EvStdout (line : str).

Inductive outcome (A : Type) : Type :=
  | Returned (a : A)
  | Raised (e : exn).

Arguments Returned {A} a.
Arguments Raised {A} e.

(** Computations: they read and extend the trace of events so far, and
    either return or raise. *)
Module Run.

Definition M (A : Type) : Type := list event → outcome A * list event.

Definition ret {A} (a : A) : M A := λ t, (Returned a, t).

Definition raise {A} (e : exn) : M A := λ t, (Raised e, t).

Definition bind {A B} (m : M A) (k : A → M B) : M B :=
  λ t, match m t with
       | (Returned a, t') => k a t'
       | (Raised e, t') => (Raised e, t')
       end.

Definition emit (e : event) : M unit := λ t, (Returned tt, t ++ [e]).

End Run.

Import Run.

#[global] Instance M_ret : MRet M := @ret.
#[global] Instance M_bind : MBind M := λ A B k m, bind m k.

(** ** Objects and namespaces *)

(** The functions the module defines, by their code. A function object
    does not hold its globals by value: it reads the module namespace
    when it runs. *)
Inductive code : Type :=
  | code_clean_text
  | code_extract_text.

Inductive pyobj : Type :=
  | PyValue (v : value)
  | PyModule (name : string)
  | PyClass (name : string)
  | PyFunction (c : code)
  | PyForeign (f : list value → M value).

(** [v == "..."] against a string literal: only an equal [str] compares
    equal to it. *)
Definition eq_str (v : value) (s : str) : bool :=
  match v with
  | VStr s' => bool_decide (s' = s)
  | _ => false
  end.

Section Interpreter.

(** The interpreter's builtins namespace; it is not part of the module. *)
Variable builtins : gmap string pyobj.

(** A global name is looked up in the module namespace, then in the
    builtins; a name bound in neither raises [NameError]. *)
Definition load_global (g : gmap string pyobj) (name : string) : M pyobj :=
  match g !! name with
  | Some o => ret o
  | None =>
      match builtins !! name with
      | Some o => ret o
      | None => raise (NameError name)
      end
  end.

(** [clean_text(text)] on an arbitrary argument: only a [str] has the
    [split] the body calls. *)
Definition clean_text_body (text : value) : M value :=
  match text with
  | VStr s => ret (VStr (clean_text s))
  | _ => raise (AttributeError "split")
  end.

(** The body of [extract_text], with the call of a callee left to [call]:
<<
    if method == "beautifulsoup":
        return extract_text_bs4(url)
    else:
        return "Unsupported extraction method specified."
>> *)
Definition extract_text_body
    (call : pyobj → list value → M value)
    (g : gmap string pyobj) (url method : value) : M value :=
  if eq_str method (lit "beautifulsoup") then
    f ← load_global g "extract_text_bs4";
    call f [url]
  else
    ret (VStr (lit "Unsupported extraction method specified.")).

(** Calling an object with positional arguments. [depth] is the number of
    frames left before the interpreter's recursion limit. *)
Fixpoint call_object (depth : nat) (g : gmap string pyobj)
    (f : pyobj) (args : list value) : M value :=
  match depth with
  | O => raise RecursionError
  | S depth' =>
      match f with
      | PyFunction code_clean_text =>
          match args with
          | [text] => clean_text_body text
          | _ => raise TypeError
          end
      | PyFunction code_extract_text =>
          match args with
          | [url] =>
              extract_text_body (call_object depth' g) g url
                (VStr (lit "beautifulsoup"))
          | [url; method] =>
              extract_text_body (call_object depth' g) g url method
          | _ => raise TypeError
          end
      | PyClass name => ret (VInstance name)
      | PyForeign f => f args
      | PyValue _ | PyModule _ => raise TypeError
      end
  end.

End Interpreter.

(** The interpreter's default recursion limit. *)
Definition recursion_limit : nat := 1000.

(** The namespace of the module once its top-level statements have run:
<<
    import requests
    from bs4 import BeautifulSoup
    def clean_text(text): ...
    def extract_text(url, method="beautifulsoup"): ...
>> *)
Definition module_globals (name : str) : gmap string pyobj :=
  <["extract_text" := PyFunction code_extract_text]>
  (<["clean_text" := PyFunction code_clean_text]>
  (<["BeautifulSoup" := PyClass "BeautifulSoup"]>
  (<["requests" := PyModule "requests"]>
  (<["__name__" := PyValue (VStr name)]> ∅)))).

(** [extract_text(url)] and [extract_text(url, method)] as a caller of the
    module invokes them: [method = None] is the call that omits it. *)
Definition extract_text (builtins : gmap string pyobj)
    (url : str) (method : option str) : M value :=
  let g := module_globals (lit "web_parser_bs4") in
  f ← load_global builtins g "extract_text";
  call_object builtins recursion_limit g f
    (VStr url :: match method with
                 | Some m => [VStr m]
                 | None => []
                 end).

(** A builtins namespace to run examples in: [print] only. *)
Definition print_only : gmap string pyobj :=
  {[ "print" := PyForeign (λ args,
       match args with
       | [VStr s] => emit (EvStdout s);; ret VNone
       | _ => ret VNone
       end) ]}.

(** The URL of the module's own example run. *)
Definition example_url : str :=
  lit "https://championstactics.ubisoft.com/items/champions/4197".

(** A namespace in which [extract_text_bs4] is bound, to a callee that
    requests its argument and answers with a fixed page; the module never
    builds it. *)
Definition globals_with_callee : gmap string pyobj :=
  <["extract_text_bs4" := PyForeign (λ args,
      match args with
      | [VStr u] => emit (EvHttpGet u);; mret (VStr (clean_text (lit " some  page ")))
      | _ => raise TypeError
      end)]> (module_globals (lit "web_parser_bs4")).

(** A callee for examples: it requests its argument and answers with the
    argument itself. *)
Definition echo_fetcher : pyobj :=
  PyForeign (λ args,
    match args with
    | [VStr u] => emit (EvHttpGet u);; mret (VStr u)
    | _ => raise TypeError
    end).

(** ** The module run as a whole *)

Section Script.

Variable builtins : gmap string pyobj.

(** What an f-string puts in place of [{v}]: the interpreter's formatting
    of a value; it is not part of the module. *)
Variable format : value → str.



End Script.


(** ** The Extractor *)

(** Modelled from the spec: the Extractor, that is the function
    [extract_text_bs4] which [extract_text] calls and the HTML-parsing
    capability behind it, is missing from the source. The specification
    describes it as: parse the HTML into a tree; collect the text content
    of all nodes, concatenated in document order, leaving out non-rendered
    elements (script and style); run the cleaning transform. *)
Module Extractor.

Inductive token : Type :=
  | TOpen (name : str)
  | TClose (name : str)
  | TText (s : str).

Definition lower (c : code_point) : code_point :=
  if (0x41 <=? c) && (c <=? 0x5A) then c + 0x20 else c.

(** The name of a tag: its leading code points up to whitespace or [/]. *)
Fixpoint tag_name (body : str) : str :=
  match body with
  | [] => []
  | c :: body' =>
      if isspace c || (c =? 0x2F) then [] else lower c :: tag_name body'
  end.

(** The token of what stands between [<] and [>]; declarations and
    comments ([<!...>]) give none. *)
Definition tag_token (body : str) : option token :=
  match body with
  | 0x21 :: _ => None
  | 0x2F :: body' => Some (TClose (tag_name body'))
  | _ => Some (TOpen (tag_name body))
  end.

Definition text_token (s : str) : list token :=
  match s with
  | [] => []
  | _ => [TText s]
  end.

(** [acc] holds, reversed, the code points read since the last token. *)
Fixpoint tokenize_from (in_tag : bool) (acc : str) (s : str) : list token :=
  match s with
  | [] => text_token (if in_tag then 0x3C :: rev acc else rev acc)
  | c :: s' =>
      if in_tag then
        if c =? 0x3E then
          option_list (tag_token (rev acc)) ++ tokenize_from false [] s'
        else tokenize_from true (c :: acc) s'
      else
        if c =? 0x3C then
          text_token (rev acc) ++ tokenize_from true [] s'
        else tokenize_from false (c :: acc) s'
  end.

Definition tokenize (html : str) : list token := tokenize_from false [] html.

Unset Elimination Schemes.
Inductive node : Type :=
  | Text (s : str)
  | Element (name : str) (children : list node).
Set Elimination Schemes.

(** Closes the elements still open at the end of the input. [cur] holds,
    reversed, the children of the innermost open element. *)
Fixpoint close_all (opened : list (str * list node)) (cur : list node)
    : list node :=
  match opened with
  | [] => rev cur
  | (name, siblings) :: opened' =>
      close_all opened' (Element name (rev cur) :: siblings)
  end.

(** Builds the forest of a token stream; an end tag that does not match
    the innermost open element is dropped. *)
Fixpoint build (opened : list (str * list node)) (cur : list node)
    (ts : list token) : list node :=
  match ts with
  | [] => close_all opened cur
  | TText s :: ts' => build opened (Text s :: cur) ts'
  | TOpen name :: ts' => build ((name, cur) :: opened) [] ts'
  | TClose name :: ts' =>
      match opened with
      | (name', siblings) :: opened' =>
          if bool_decide (name = name')
          then build opened' (Element name' (rev cur) :: siblings) ts'
          else build opened cur ts'
      | [] => build [] cur ts'
      end
  end.

(** Modelled from the spec: parsing the HTML into a tree. *)
Definition parse (html : str) : list node := build [] [] (tokenize html).

Definition non_rendered (name : str) : bool :=
  bool_decide (name = lit "script") || bool_decide (name = lit "style").

(** Modelled from the spec: the visible text of a node, the text content
    of its descendants in document order, non-rendered elements left out. *)
Fixpoint visible_text (n : node) : str :=
  match n with
  | Text s => s
  | Element name children =>
      if non_rendered name then []
      else concat (map visible_text children)
  end.

(** Modelled from the spec: the Extractor, from raw HTML to cleaned
    visible text. *)
Definition extract (html : str) : str :=
  clean_text (concat (map visible_text (parse html))).

End Extractor.

(** * Properties *)

(** ** Sample runs *)

Example clean_text_sample :
  clean_text (lit "x  y") = lit "x y".
Proof. reflexivity. Qed.

(** Whitespace is Unicode whitespace: a no-break space and an ideographic
    space separate tokens as a blank does. *)
Example clean_text_unicode :
  clean_text ([0xA0] ++ lit "a" ++ [0x3000; 0x1F] ++ lit "b")
  = lit "a b".
Proof. reflexivity. Qed.

Example extract_text_unknown :
  extract_text print_only (lit "not a url") (Some (lit "unknown")) []
  = (Returned (VStr (lit "Unsupported extraction method specified.")), []).
Proof. vm_compute. reflexivity. Qed.

Example extract_text_supported :
  extract_text print_only (lit "http://example.org/") (Some (lit "beautifulsoup")) []
  = (Raised (NameError "extract_text_bs4"), []).
Proof. vm_compute. reflexivity. Qed.

(** Were the callee bound, the supported branch would reach it. *)
Example extract_text_with_callee :
  call_object print_only recursion_limit globals_with_callee
    (PyFunction code_extract_text) [VStr example_url] []
  = (Returned (VStr (lit "some page")), [EvHttpGet example_url]).
Proof. vm_compute. reflexivity. Qed.

Example extractor_nested :
  Extractor.extract (lit "<div><p>a <b>b</b></p><style>p {}</style> c</div>")
  = lit "a b c".
Proof. vm_compute. reflexivity. Qed.

(** ** [split] and [join] *)

Section SplitJoin.

Local Hint Unfold all_whitespace whitespace_free is_token : core.

Lemma split_all_whitespace ws s :
  all_whitespace ws → split (ws ++ s) = split s.
Proof.
  induction 1 as [|c ws Hc _ IH]; [done|].
  simpl. by rewrite Hc.
Qed.

Lemma split_token_app t rest :
  is_token t →
  rest = [] ∨ starts_with_whitespace rest = true →
  split (t ++ rest) = t :: split rest.
Proof.
  intros [Hne Hfree] Hrest.
  induction Hfree as [|c t Hc Hfree IH]; [done|].
  destruct t as [|c' t].
  - simpl. rewrite Hc.
    destruct Hrest as [->|Hrest]; [done|].
    destruct rest as [|d rest]; [done|].
    simpl in Hrest. by rewrite Hrest.
  - change (split ((c :: c' :: t) ++ rest))
      with (split (c :: (c' :: t) ++ rest)).
    assert (Hc' : isspace c' = false) by by inversion Hfree.
    cbn [split app]. rewrite Hc, Hc'.
    cbn [split app] in IH. rewrite Hc' in IH.
    by rewrite IH.
Qed.

Lemma split_tokens s : Forall is_token (split s).
Proof.
  induction s as [|c s IH]; [constructor|].
  cbn [split]. destruct (isspace c) eqn:Hc; [done|].
  assert (Hone : is_token [c]) by (split; [done | by repeat constructor]).
  destruct s as [|d s]; [by repeat constructor|].
  destruct (isspace d) eqn:Hd; [by constructor|].
  destruct (split (d :: s)) as [|t ts]; [by repeat constructor|].
  inversion IH as [|? ? [_ Ht] Hts]; subst.
  constructor; [|done].
  split; [done | by constructor].
Qed.

Lemma join_cons sep p q rest :
  join sep (p :: q :: rest) = p ++ sep ++ join sep (q :: rest).
Proof. done. Qed.

Lemma split_join ts :
  Forall is_token ts → split (join (lit " ") ts) = ts.
Proof.
  induction 1 as [|p ts Hp Hts IH]; [done|].
  destruct ts as [|q ts].
  - simpl. rewrite <- (app_nil_r p) at 1.
    rewrite split_token_app; auto.
  - rewrite join_cons, split_token_app; [|done|by right].
    change (lit " " ++ join (lit " ") (q :: ts))
      with ([space] ++ join (lit " ") (q :: ts)).
    rewrite split_all_whitespace; [by rewrite IH|].
    by repeat constructor.
Qed.

Lemma starts_with_whitespace_token t s :
  is_token t → starts_with_whitespace (t ++ s) = false.
Proof.
  intros [Hne Hfree]. destruct t as [|c t]; [done|].
  by inversion Hfree.
Qed.

Lemma join_starts ts :
  Forall is_token ts → starts_with_whitespace (join (lit " ") ts) = false.
Proof.
  destruct 1 as [|p ts Hp Hts]; [done|].
  destruct ts as [|q ts].
  - simpl. rewrite <- (app_nil_r p). by apply starts_with_whitespace_token.
  - rewrite join_cons. by apply starts_with_whitespace_token.
Qed.

Lemma ends_with_whitespace_app a b :
  b ≠ [] → ends_with_whitespace (a ++ b) = ends_with_whitespace b.
Proof.
  intros Hb. unfold ends_with_whitespace. rewrite rev_app_distr.
  destruct (rev b) as [|c r] eqn:Hr; [|done].
  apply (f_equal (@rev _)) in Hr. rewrite rev_involutive in Hr. done.
Qed.

Lemma ends_with_whitespace_token t :
  is_token t → ends_with_whitespace t = false.
Proof.
  intros [Hne Hfree]. unfold ends_with_whitespace.
  destruct (rev t) as [|c r] eqn:Hr; [done|].
  simpl. eapply (proj1 (Forall_forall _ _) Hfree).
  apply list_elem_of_In, in_rev. rewrite Hr. by left.
Qed.

Lemma join_nonempty sep p ts : p ≠ [] → join sep (p :: ts) ≠ [].
Proof. destruct ts, p; done. Qed.

Lemma join_ends ts :
  Forall is_token ts → ends_with_whitespace (join (lit " ") ts) = false.
Proof.
  induction 1 as [|p ts Hp Hts IH]; [done|].
  destruct ts as [|q ts]; [by apply ends_with_whitespace_token|].
  rewrite join_cons, app_assoc, ends_with_whitespace_app; [done|].
  inversion Hts as [|? ? [Hq _] _]; subst. by apply join_nonempty.
Qed.

Lemma has_whitespace_run_token t s :
  is_token t →
  has_whitespace_run (t ++ s) =
  match s with
  | [] => false
  | d :: _ => has_whitespace_run s
  end.
Proof.
  intros [Hne Hfree].
  induction Hfree as [|c t Hc Hfree IH]; [done|].
  destruct t as [|c' t].
  - destruct s as [|d s]; [done|].
    change (has_whitespace_run ([c] ++ d :: s))
      with ((isspace c && isspace d) || has_whitespace_run (d :: s)).
    by rewrite Hc.
  - change (has_whitespace_run ((c :: c' :: t) ++ s))
      with ((isspace c && isspace c') || has_whitespace_run ((c' :: t) ++ s)).
    rewrite Hc. by apply IH.
Qed.

Lemma join_no_run ts :
  Forall is_token ts → has_whitespace_run (join (lit " ") ts) = false.
Proof.
  induction 1 as [|p ts Hp Hts IH]; [done|].
  destruct ts as [|q ts].
  - simpl. rewrite <- (app_nil_r p). by rewrite has_whitespace_run_token.
  - rewrite join_cons, has_whitespace_run_token; [|done].
    pose proof (join_starts _ Hts) as Hs.
    destruct (join (lit " ") (q :: ts)) as [|d r] eqn:Hj; [done|].
    change (lit " " ++ d :: r) with (space :: d :: r).
    change (has_whitespace_run (space :: d :: r))
      with ((isspace space && isspace d) || has_whitespace_run (d :: r)).
    simpl in Hs. by rewrite Hs, andb_false_r.
Qed.

Lemma non_whitespace_token t :
  whitespace_free t → non_whitespace t = t.
Proof.
  induction 1 as [|c t Hc _ IH]; [done|].
  unfold non_whitespace in *. rewrite filter_cons_True; [|done].
  by rewrite IH.
Qed.

Lemma non_whitespace_app a b :
  non_whitespace (a ++ b) = non_whitespace a ++ non_whitespace b.
Proof. apply filter_app. Qed.

Lemma non_whitespace_join ts :
  Forall is_token ts → non_whitespace (join (lit " ") ts) = concat ts.
Proof.
  induction 1 as [|p ts [_ Hp] Hts IH]; [done|].
  destruct ts as [|q ts].
  - simpl. rewrite app_nil_r. by apply non_whitespace_token.
  - rewrite join_cons, !non_whitespace_app, IH.
    by rewrite (non_whitespace_token p Hp).
Qed.

Lemma concat_split s : concat (split s) = non_whitespace s.
Proof.
  unfold non_whitespace.
  induction s as [|c s IH]; [done|].
  cbn [split]. destruct (isspace c) eqn:Hc.
  - rewrite filter_cons_False; [done | by rewrite Hc].
  - rewrite filter_cons_True; [|done].
    destruct s as [|d s]; [done|].
    rewrite <- IH.
    destruct (isspace d) eqn:Hd; [done|].
    by destruct (split (d :: s)).
Qed.

Lemma whitespace_free_runs_unique s rs :
  whitespace_free_runs s rs → rs = split s.
Proof.
  induction 1 as [ws Hws | ws r rest rs Hws Hr Hrest _ IH].
  - rewrite <- (app_nil_r ws). by rewrite split_all_whitespace.
  - rewrite split_all_whitespace, split_token_app; [|done..].
    by rewrite IH.
Qed.

Lemma whitespace_free_runs_split s : whitespace_free_runs s (split s).
Proof.
  induction s as [|c s IH]; [apply runs_none; constructor|].
  cbn [split]. destruct (isspace c) eqn:Hc.
  - destruct IH as [ws Hws | ws r rest rs Hws Hr Hrest Hrs].
    + apply runs_none. by constructor.
    + apply (runs_next (c :: ws) r rest rs); auto.
  - assert (Hone : is_token [c]) by (split; [done | by repeat constructor]).
    assert (Hnil : all_whitespace []) by constructor.
    destruct s as [|d s].
    + apply (runs_next [] [c] [] []); auto using runs_none.
    + destruct (isspace d) eqn:Hd.
      * apply (runs_next [] [c] (d :: s)); auto.
      * remember (d :: s) as s' eqn:Hs'.
        destruct IH as [ws Hws | ws r rest rs Hws Hr Hrest Hrs].
        { exfalso. subst ws. inversion Hws; subst. congruence. }
        destruct ws as [|w ws].
        -- simpl in Hs'. 
           apply (runs_next [] (c :: r) rest rs); auto.
           destruct Hr as [_ Hr]. split; [done | by constructor].
        -- exfalso. inversion Hws; subst. simpl in Hs'.
           injection Hs' as -> _. congruence.
Qed.

End SplitJoin.

(** ** Name resolution and dispatch *)

Section Dispatch.

Variable builtins : gmap string pyobj.

Lemma load_global_unbound (g : gmap string pyobj) name t :
  g !! name = None →
  builtins !! name = None →
  load_global builtins g name t = (Raised (NameError name), t).
Proof. intros Hg Hb. unfold load_global. by rewrite Hg, Hb. Qed.

Lemma load_global_bound (g : gmap string pyobj) name o t :
  g !! name = Some o →
  load_global builtins g name t = (Returned o, t).
Proof. intros Hg. unfold load_global. by rewrite Hg. Qed.

(** In any namespace that leaves [extract_text_bs4] unbound, the supported
    branch stops at the name lookup, whatever the frame budget. *)
Lemma call_extract_text_supported (g : gmap string pyobj) depth url t :
  g !! "extract_text_bs4" = None →
  builtins !! "extract_text_bs4" = None →
  call_object builtins (S depth) g (PyFunction code_extract_text)
    [url; VStr (lit "beautifulsoup")] t
  = (Raised (NameError "extract_text_bs4"), t).
Proof.
  intros Hg Hb. cbn [call_object]. unfold extract_text_body.
  cbn [eq_str]. rewrite bool_decide_eq_true_2 by done.
  unfold mbind, M_bind, bind.
  by rewrite load_global_unbound.
Qed.

Lemma call_extract_text_unsupported (g : gmap string pyobj) depth url method t :
  method ≠ lit "beautifulsoup" →
  call_object builtins (S depth) g (PyFunction code_extract_text)
    [url; VStr method] t
  = (Returned (VStr (lit "Unsupported extraction method specified.")), t).
Proof.
  intros Hm. cbn [call_object]. unfold extract_text_body.
  cbn [eq_str]. by rewrite bool_decide_eq_false_2.
Qed.

(** The default of [method] is bound when the frame is entered. *)
Lemma call_extract_text_default (g : gmap string pyobj) depth url t :
  call_object builtins (S depth) g (PyFunction code_extract_text) [url] t
  = call_object builtins (S depth) g (PyFunction code_extract_text)
      [url; VStr (lit "beautifulsoup")] t.
Proof. reflexivity. Qed.

Lemma extract_text_unfold url method t :
  extract_text builtins url method t
  = call_object builtins recursion_limit
      (module_globals (lit "web_parser_bs4")) (PyFunction code_extract_text)
      (VStr url :: match method with Some m => [VStr m] | None => [] end) t.
Proof.
  unfold extract_text, mbind, M_bind, bind.
  by rewrite (load_global_bound _ _ (PyFunction code_extract_text)).
Qed.

Lemma module_globals_no_extractor name :
  module_globals name !! "extract_text_bs4" = None.
Proof. unfold module_globals. by simplify_map_eq. Qed.

End Dispatch.

(** ** The properties of the specification *)

(** C1: on the supported method the dispatcher is to fetch, extract and
    return the cleaned text. Run on the module's example URL it returns
    nothing: it raises [NameError] for [extract_text_bs4], and no request
    was made. *)
Theorem extract_text_example_raises :
  extract_text print_only example_url (Some (lit "beautifulsoup")) []
  = (Raised (NameError "extract_text_bs4"), []).
Proof. vm_compute. reflexivity. Qed.

(** C2: for every URL, [extract_text(url, "beautifulsoup")] raises
    [NameError]: the name [extract_text_bs4] is bound nowhere in the module
    (nor, by hypothesis, in the builtins), and the run ends at the lookup
    with the trace as it was, so nothing was fetched, parsed or cleaned. *)
Theorem extract_text_supported_name_error
    (builtins : gmap string pyobj) (url : str) (t : list event) :
  builtins !! "extract_text_bs4" = None →
  module_globals (lit "web_parser_bs4") !! "extract_text_bs4" = None
  ∧ extract_text builtins url (Some (lit "beautifulsoup")) t
    = (Raised (NameError "extract_text_bs4"), t).
Proof.
  intros Hb. split; [apply module_globals_no_extractor|].
  rewrite extract_text_unfold.
  apply call_extract_text_supported; [apply module_globals_no_extractor | done].
Qed.

Lemma extract_text_supported_name_error_witness :
  print_only !! "extract_text_bs4" = None
  ∧ module_globals (lit "web_parser_bs4") !! "extract_text_bs4" = None
  ∧ extract_text print_only example_url (Some (lit "beautifulsoup")) []
    = (Raised (NameError "extract_text_bs4"), []).
Proof.
  split; [reflexivity|].
  apply (extract_text_supported_name_error print_only example_url []).
  reflexivity.
Defined.

(** C3: for every URL and every method other than ["beautifulsoup"],
    [extract_text] returns the sentinel string as an ordinary result and
    leaves the trace untouched: no request is made. *)
Theorem extract_text_unsupported
    (builtins : gmap string pyobj) (url method : str) (t : list event) :
  method ≠ lit "beautifulsoup" →
  extract_text builtins url (Some method) t
  = (Returned (VStr (lit "Unsupported extraction method specified.")), t).
Proof.
  intros Hm. rewrite extract_text_unfold.
  by apply call_extract_text_unsupported.
Qed.

Lemma extract_text_unsupported_witness :
  lit "unknown" ≠ lit "beautifulsoup"
  ∧ extract_text print_only (lit "not a url") (Some (lit "unknown")) []
    = (Returned (VStr (lit "Unsupported extraction method specified.")), []).
Proof.
  split; [discriminate|].
  apply (extract_text_unsupported print_only (lit "not a url") (lit "unknown") []).
  discriminate.
Defined.

(** C4: the output of [clean_text] has no two adjacent whitespace code
    points and neither starts nor ends with whitespace. *)
Theorem clean_text_normalised (text : str) :
  has_whitespace_run (clean_text text) = false
  ∧ starts_with_whitespace (clean_text text) = false
  ∧ ends_with_whitespace (clean_text text) = false.
Proof.
  unfold clean_text. pose proof (split_tokens text) as Hts.
  auto using join_no_run, join_starts, join_ends.
Qed.

(** C5: [clean_text] is idempotent. *)
Theorem clean_text_idempotent (x : str) :
  clean_text (clean_text x) = clean_text x.
Proof.
  unfold clean_text. by rewrite split_join by apply split_tokens.
Qed.

(** C6: on the fixture the Extractor returns ["Hello world"]; the content
    of the script element is not part of the text. *)
Theorem extractor_fixture :
  Extractor.extract
    (lit "<html><body><p>Hello   world</p><script>ignored()</script></body></html>")
  = lit "Hello world".
Proof. vm_compute. reflexivity. Qed.

(** C7: a call that omits [method] runs exactly as the call that passes
    ["beautifulsoup"]: same outcome (result or exception) and same trace. *)
Theorem extract_text_default_method
    (builtins : gmap string pyobj) (url : str) (t : list event) :
  extract_text builtins url None t
  = extract_text builtins url (Some (lit "beautifulsoup")) t.
Proof.
  rewrite (extract_text_unfold builtins url None t).
  rewrite (extract_text_unfold builtins url (Some (lit "beautifulsoup")) t).
  apply call_extract_text_default.
Qed.

(** C8: [clean_text("")] is [""]. *)
Theorem clean_text_empty : clean_text (lit "") = lit "".
Proof. reflexivity. Qed.

(** C9: two spaces, [a], three spaces, [b], a newline, a tab, [c], two
    spaces clean to ["a b c"]. *)
Theorem clean_text_a_b_c :
  clean_text (lit "  a   b" ++ [0x0A; 0x09] ++ lit "c  ") = lit "a b c".
Proof. vm_compute. reflexivity. Qed.

(** C10: [clean_text] only alters whitespace. The non-whitespace code
    points of the output are those of the input, in the same order; and
    the input has exactly one decomposition into maximal whitespace-free
    runs, of which the output is the join by single spaces. *)
Theorem clean_text_only_whitespace (text : str) :
  non_whitespace (clean_text text) = non_whitespace text
  ∧ ∃ runs : list str,
      whitespace_free_runs text runs
      ∧ (∀ runs', whitespace_free_runs text runs' → runs' = runs)
      ∧ clean_text text = join [space] runs.
Proof.
  split.
  - unfold clean_text.
    by rewrite non_whitespace_join, concat_split by apply split_tokens.
  - exists (split text). split; [apply whitespace_free_runs_split|].
    split; [apply whitespace_free_runs_unique | done].
Qed.

(** ** Further properties of [clean_text] *)

Section CleanText.

Lemma split_head_token c s :
  isspace c = false → split (c :: s) ≠ [].
Proof.
  intros Hc. cbn [split]. rewrite Hc.
  destruct s as [|d s]; [done|].
  destruct (isspace d); [done|].
  by destruct (split (d :: s)).
Qed.

Lemma split_nil_all_whitespace s : split s = [] → all_whitespace s.
Proof.
  induction s as [|c s IH]; [constructor|].
  destruct (isspace c) eqn:Hc.
  - cbn [split]. rewrite Hc. intros Hs.
    unfold all_whitespace. constructor; [done | by apply IH].
  - intros Hs. by apply split_head_token in Hs.
Qed.

Lemma join_nil_tokens ts :
  Forall is_token ts → join [space] ts = [] → ts = [].
Proof.
  destruct 1 as [|p ts [Hp _] _]; [done|].
  intros Hj. by apply join_nonempty in Hj.
Qed.

Lemma clean_text_nil_split s : clean_text s = [] ↔ split s = [].
Proof.
  unfold clean_text. split.
  - apply join_nil_tokens, split_tokens.
  - by intros ->.
Qed.

Lemma join_app_nonempty sep (l1 l2 : list (list N)) :
  l1 ≠ [] → l2 ≠ [] →
  join sep (l1 ++ l2) = join sep l1 ++ sep ++ join sep l2.
Proof.
  intros H1 H2. induction l1 as [|p l1 IH]; [done|].
  destruct l1 as [|q l1].
  - destruct l2 as [|r l2]; done.
  - change ((p :: q :: l1) ++ l2) with (p :: q :: (l1 ++ l2)).
    rewrite !join_cons.
    change (q :: l1 ++ l2) with ((q :: l1) ++ l2).
    rewrite IH by done. by rewrite <- !app_assoc.
Qed.

Lemma split_app_whitespace a w b :
  isspace w = true → split (a ++ w :: b) = split a ++ split b.
Proof.
  intros Hw. induction a as [|c a IH].
  - simpl. by rewrite Hw.
  - change ((c :: a) ++ w :: b) with (c :: (a ++ w :: b)).
    destruct (isspace c) eqn:Hc.
    + cbn [split]. by rewrite Hc.
    + destruct a as [|d a].
      * simpl. by rewrite Hc, Hw.
      * change ((d :: a) ++ w :: b) with (d :: (a ++ w :: b)) in *.
        cbn [split] in *. rewrite Hc.
        destruct (isspace d) eqn:Hd.
        -- by rewrite IH.
        -- pose proof (split_head_token d a Hd) as Hne.
           cbn [split] in Hne. rewrite Hd in Hne.
           rewrite IH.
           match goal with
           | |- context [?x ++ split b] =>
               destruct x as [|t ts] eqn:Hx; [done|]
           end.
           done.
Qed.

Lemma split_app_whitespace_run a ws b :
  all_whitespace ws → ws ≠ [] →
  split (a ++ ws ++ b) = split a ++ split b.
Proof.
  intros Hws Hne. destruct Hws as [|w ws Hw Hws]; [done|].
  change ((w :: ws) ++ b) with (w :: (ws ++ b)).
  rewrite split_app_whitespace by done.
  by rewrite split_all_whitespace.
Qed.

Lemma split_trailing_whitespace s ws :
  all_whitespace ws → split (s ++ ws) = split s.
Proof.
  intros Hws. destruct Hws as [|w ws Hw Hws]; [by rewrite app_nil_r|].
  rewrite split_app_whitespace by done.
  rewrite <- (app_nil_r ws), split_all_whitespace by done.
  by rewrite app_nil_r.
Qed.

Lemma elem_of_join (c : N) sep ts :
  c ∈ join sep ts → c ∈ sep ∨ ∃ t, t ∈ ts ∧ c ∈ t.
Proof.
  induction ts as [|p ts IH]; [by intros ?%elem_of_nil|].
  destruct ts as [|q ts].
  - intros Hc. right. exists p. split; [by left | done].
  - rewrite join_cons, !elem_of_app.
    intros [Hc|[Hc|Hc]]; [|by left|].
    + right. exists p. split; [by left | done].
    + destruct (IH Hc) as [?|(t & Ht & Hct)]; [by left|].
      right. exists t. split; [by right | done].
Qed.

Lemma clean_text_length_aux s :
  (length (clean_text s) + (if starts_with_whitespace s then 1 else 0)
   ≤ length s)%nat.
Proof.
  unfold clean_text.
  induction s as [|c s IH]; [simpl; lia|].
  cbn [split starts_with_whitespace]. destruct (isspace c) eqn:Hc.
  - cbn [length]. destruct (starts_with_whitespace s); lia.
  - destruct s as [|d s]; [simpl; lia|].
    cbn [starts_with_whitespace] in IH.
    destruct (isspace d) eqn:Hd.
    + destruct (split (d :: s)) as [|t ts].
      * simpl. lia.
      * rewrite join_cons, !length_app.
        change (lit " ") with [space] in *. cbn [length] in *. lia.
    + destruct (split (d :: s)) as [|t ts]; [simpl; lia|].
      assert (Hj : join (lit " ") ((c :: t) :: ts)
                   = c :: join (lit " ") (t :: ts))
        by by destruct ts.
      rewrite Hj. cbn [length] in *. lia.
Qed.

Lemma join_plain_spaces ts :
  Forall is_token ts → only_plain_spaces (join [space] ts).
Proof.
  intros Hts. apply Forall_forall. intros c Hc Hws.
  apply elem_of_join in Hc as [Hc|(t & Ht & Hc)].
  - by apply list_elem_of_singleton in Hc.
  - exfalso.
    pose proof (proj1 (Forall_forall _ _) Hts t Ht) as [_ Hfree].
    pose proof (proj1 (Forall_forall _ _) Hfree c Hc) as Hn.
    simpl in Hn. congruence.
Qed.

Lemma ends_with_whitespace_cons c s :
  s ≠ [] → ends_with_whitespace (c :: s) = ends_with_whitespace s.
Proof. intros Hs. by apply (ends_with_whitespace_app [c] s). Qed.

Lemma has_whitespace_run_cons c d s :
  has_whitespace_run (c :: d :: s)
  = (isspace c && isspace d) || has_whitespace_run (d :: s).
Proof. done. Qed.

(** On a text without whitespace runs or trailing whitespace, and with
    plain spaces only, cleaning removes at most one leading space. *)
Lemma clean_text_normalised_input s :
  has_whitespace_run s = false →
  ends_with_whitespace s = false →
  only_plain_spaces s →
  clean_text s = if starts_with_whitespace s then tail s else s.
Proof.
  unfold clean_text.
  induction s as [|c s IH]; [done|].
  intros Hrun Hend Hsp.
  inversion Hsp as [|? ? Hc_space Hsp']; subst.
  assert (Hrun' : has_whitespace_run s = false).
  { destruct s as [|d s]; [done|].
    rewrite has_whitespace_run_cons in Hrun.
    by apply orb_false_iff in Hrun as [_ ?]. }
  assert (Hend' : ends_with_whitespace s = false).
  { destruct s as [|d s]; [done|].
    by rewrite ends_with_whitespace_cons in Hend. }
  specialize (IH Hrun' Hend' Hsp').
  cbn [split starts_with_whitespace tail].
  destruct (isspace c) eqn:Hc.
  - destruct s as [|d s].
    + unfold ends_with_whitespace in Hend. simpl in Hend. congruence.
    + rewrite has_whitespace_run_cons, Hc in Hrun.
      apply orb_false_iff in Hrun as [Hd _]. simpl in Hd.
      cbn [starts_with_whitespace] in IH. by rewrite Hd in IH.
  - destruct s as [|d s]; [done|].
    cbn [starts_with_whitespace tail] in IH.
    destruct (isspace d) eqn:Hd.
    + inversion Hsp' as [|? ? Hd_space _]; subst.
      rewrite (Hd_space Hd) in *.
      destruct (split (space :: s)) as [|t ts].
      * simpl in IH. subst s.
        unfold ends_with_whitespace in Hend. by vm_compute in Hend.
      * rewrite join_cons, IH. done.
    + pose proof (split_head_token d s Hd) as Hne.
      destruct (split (d :: s)) as [|t ts]; [done|].
      rewrite <- IH. by destruct ts.
Qed.

End CleanText.

(** X1: [clean_text] returns the empty string exactly on the texts that
    hold nothing but whitespace (the empty text among them). *)
Theorem clean_text_empty_iff (s : str) :
  clean_text s = [] ↔ all_whitespace s.
Proof.
  rewrite clean_text_nil_split. split.
  - apply split_nil_all_whitespace.
  - intros Hs. rewrite <- (app_nil_r s). by rewrite split_all_whitespace.
Qed.

(** X2: the only whitespace left in the output of [clean_text] is the
    space U+0020: tabs, newlines and the other blanks are all replaced. *)
Theorem clean_text_plain_spaces (s : str) :
  only_plain_spaces (clean_text s).
Proof. apply join_plain_spaces, split_tokens. Qed.

(** X3: [clean_text] never lengthens a text. *)
Theorem clean_text_length (s : str) :
  (length (clean_text s) ≤ length s)%nat.
Proof. pose proof (clean_text_length_aux s). lia. Qed.

(** X4: the texts [clean_text] leaves unchanged are exactly those with no
    whitespace run, no whitespace at either end, and plain spaces as their
    only whitespace. *)
Theorem clean_text_fixed_point (s : str) :
  clean_text s = s
  ↔ has_whitespace_run s = false
    ∧ starts_with_whitespace s = false
    ∧ ends_with_whitespace s = false
    ∧ only_plain_spaces s.
Proof.
  split.
  - intros <-. unfold clean_text. pose proof (split_tokens s) as Hts.
    auto using join_no_run, join_starts, join_ends, join_plain_spaces.
  - intros (Hrun & Hstart & Hend & Hsp).
    rewrite clean_text_normalised_input by done. by rewrite Hstart.
Qed.

(** X5: whitespace around a text does not change what [clean_text]
    returns for it. *)
Theorem clean_text_padding (ws1 s ws2 : str) :
  all_whitespace ws1 → all_whitespace ws2 →
  clean_text (ws1 ++ s ++ ws2) = clean_text s.
Proof.
  intros H1 H2. unfold clean_text.
  by rewrite split_all_whitespace, split_trailing_whitespace.
Qed.

Lemma clean_text_padding_witness :
  all_whitespace [0x09; 0x20] ∧ all_whitespace [0x0A]
  ∧ clean_text ([0x09; 0x20] ++ lit "a  b" ++ [0x0A]) = clean_text (lit "a  b").
Proof.
  assert (H1 : all_whitespace [0x09; 0x20]) by (by repeat constructor).
  assert (H2 : all_whitespace [0x0A]) by (by repeat constructor).
  split; [exact H1|]. split; [exact H2|].
  exact (clean_text_padding [0x09; 0x20] (lit "a  b") [0x0A] H1 H2).
Defined.

(** X6: cleaning two texts set apart by any non-empty run of whitespace
    is cleaning each and putting one space between the results, when
    neither text is whitespace only. *)
Theorem clean_text_concat (a ws b : str) :
  all_whitespace ws → ws ≠ [] →
  clean_text a ≠ [] → clean_text b ≠ [] →
  clean_text (a ++ ws ++ b) = clean_text a ++ [space] ++ clean_text b.
Proof.
  intros Hws Hne Ha Hb. unfold clean_text.
  rewrite split_app_whitespace_run by done.
  apply join_app_nonempty.
  - intros Hs. by apply Ha, clean_text_nil_split.
  - intros Hs. by apply Hb, clean_text_nil_split.
Qed.

Lemma clean_text_concat_witness :
  all_whitespace [0x0A; 0x09] ∧ [0x0A; 0x09] ≠ ([] : list N)
  ∧ clean_text (lit " a") ≠ [] ∧ clean_text (lit "b c ") ≠ []
  ∧ clean_text (lit " a" ++ [0x0A; 0x09] ++ lit "b c ")
    = clean_text (lit " a") ++ [space] ++ clean_text (lit "b c ").
Proof.
  assert (H1 : all_whitespace [0x0A; 0x09]) by (by repeat constructor).
  assert (H2 : [0x0A; 0x09] ≠ ([] : list N)) by discriminate.
  assert (H3 : clean_text (lit " a") ≠ []) by discriminate.
  assert (H4 : clean_text (lit "b c ") ≠ []) by discriminate.
  repeat (split; [assumption|]).
  exact (clean_text_concat (lit " a") [0x0A; 0x09] (lit "b c ") H1 H2 H3 H4).
Defined.

(** X7: cleaning keeps the words: splitting the cleaned text gives the
    same list of tokens as splitting the text itself. *)
Theorem split_clean_text (s : str) :
  split (clean_text s) = split s.
Proof. unfold clean_text. apply split_join, split_tokens. Qed.

(** ** Further properties of the dispatcher and of the script *)

Section Module.

Variable builtins : gmap string pyobj.
Variable format : value → str.

Lemma call_extract_text_callee (g : gmap string pyobj) depth f url t :
  g !! "extract_text_bs4" = Some f →
  call_object builtins (S depth) g (PyFunction code_extract_text)
    [url; VStr (lit "beautifulsoup")] t
  = call_object builtins depth g f [url] t.
Proof.
  intros Hg. cbn [call_object]. unfold extract_text_body.
  cbn [eq_str]. rewrite bool_decide_eq_true_2 by done.
  unfold mbind, M_bind, bind.
  by rewrite (load_global_bound _ _ _ f).
Qed.


End Module.

(** X8: whatever the URL and whatever the method, given or omitted,
    [extract_text] ends in one of two ways, the sentinel string or the
    [NameError], and in both the trace is as it was: no page is ever
    requested and no page text ever returned. *)
Theorem extract_text_outcomes
    (builtins : gmap string pyobj) (url : str) (method : option str)
    (t : list event) :
  builtins !! "extract_text_bs4" = None →
  extract_text builtins url method t
    = (Raised (NameError "extract_text_bs4"), t)
  ∨ extract_text builtins url method t
    = (Returned (VStr (lit "Unsupported extraction method specified.")), t).
Proof.
  intros Hb. rewrite extract_text_unfold.
  change recursion_limit with (S (Nat.pred recursion_limit)).
  destruct method as [m|].
  - destruct (decide (m = lit "beautifulsoup")) as [->|Hm].
    + left. apply call_extract_text_supported;
        [apply module_globals_no_extractor | done].
    + right. by apply call_extract_text_unsupported.
  - left. rewrite call_extract_text_default.
    apply call_extract_text_supported;
      [apply module_globals_no_extractor | done].
Qed.

Lemma extract_text_outcomes_witness :
  print_only !! "extract_text_bs4" = None
  ∧ (extract_text print_only example_url None []
       = (Raised (NameError "extract_text_bs4"), [])
     ∨ extract_text print_only example_url None []
       = (Returned (VStr (lit "Unsupported extraction method specified.")),
          [])).
Proof.
  split; [reflexivity|].
  apply (extract_text_outcomes print_only example_url None []).
  reflexivity.
Defined.

(** X9: the callee is resolved when the call runs. In a namespace that
    binds [extract_text_bs4], the supported branch calls that object one
    frame deeper with the URL as its only argument and hands back its
    outcome and trace untouched: the dispatcher does no cleaning itself. *)
Theorem extract_text_late_binding
    (builtins : gmap string pyobj) (g : gmap string pyobj)
    (depth : nat) (f : pyobj) (url : str) (t : list event) :
  g !! "extract_text_bs4" = Some f →
  call_object builtins (S depth) g (PyFunction code_extract_text)
    [VStr url] t
  = call_object builtins depth g f [VStr url] t.
Proof.
  intros Hg. rewrite call_extract_text_default.
  by apply call_extract_text_callee.
Qed.

Lemma extract_text_late_binding_witness :
  (<["extract_text_bs4" := echo_fetcher]>
     (module_globals (lit "web_parser_bs4")) : gmap string pyobj)
    !! "extract_text_bs4" = Some echo_fetcher
  ∧ call_object print_only 2
      (<["extract_text_bs4" := echo_fetcher]>
         (module_globals (lit "web_parser_bs4")))
      (PyFunction code_extract_text) [VStr (lit " a  b ")] []
    = call_object print_only 1
        (<["extract_text_bs4" := echo_fetcher]>
           (module_globals (lit "web_parser_bs4")))
        echo_fetcher [VStr (lit " a  b ")] [].
Proof.
  split; [reflexivity|].
  apply (extract_text_late_binding print_only
           (<["extract_text_bs4" := echo_fetcher]>
              (module_globals (lit "web_parser_bs4")))
           1 echo_fetcher (lit " a  b ") []).
  reflexivity.
Defined.




